(** * LedFx frontend: route table, transition card and system API client

    A shallow embedding of three pieces of the LedFx web frontend:

    - [frontend/src/routes/views.jsx]: the route table [viewRoutes], two of
      whose entries are chosen by the integer stored under the local-storage
      key ['BladeMod'] (module [Views]);
    - the [TransitionCard] React component (module [Transition]);
    - the system API client: [shutdown], [getSystemConfig], ... (module [Api]).

    JavaScript values are embedded once, in module [JS], and shared. *)

From Stdlib Require Import PrimFloat ZArith NArith Ascii String.
From stdpp Require Import gmap strings list.

Set Warnings "-register-all".
Local Open Scope Z_scope.

(** ** JavaScript values *)
Module JS.

(** A JavaScript string is a sequence of UTF-16 code units. *)
Abbreviation jsstring := (list N).

(** Source literals are ASCII; [js "abc"] is the string of their code units. *)
Definition js (s : string) : jsstring :=
  map N_of_ascii (list_ascii_of_string s).

(** Plain data as it travels through the store, props and HTTP bodies.
    Numbers are IEEE 754 binary64, an object is the list of its own
    properties in insertion order. Functions are not values of this type:
    where the source passes a function it is embedded as a Rocq function. *)
Inductive value :=
| VUndefined
| VNull
| VBool (b : bool)
| VNum (x : float)
| VStr (s : jsstring)
| VArr (items : list value)
| VObj (fields : list (jsstring * value)).

(** [ToBoolean]. *)
Definition truthy (v : value) : bool :=
  match v with
  | VUndefined | VNull => false
  | VBool b => b
  | VNum x => negb (PrimFloat.eqb x 0 || negb (PrimFloat.eqb x x))
  | VStr s => negb (bool_decide (s = []))
  | VArr _ | VObj _ => true
  end.

Definition nullish (v : value) : bool :=
  match v with
  | VUndefined | VNull => true
  | _ => false
  end.

(** First binding of [k] in a property list. *)
Fixpoint assoc {A} (k : jsstring) (l : list (jsstring * A)) : option A :=
  match l with
  | [] => None
  | (k', a) :: l' => if bool_decide (k' = k) then Some a else assoc k l'
  end.

(** The array index a property key writes: a decimal numeral without leading
    zeros. *)
Definition array_index (k : jsstring) : option N :=
  match k with
  | [] => None
  | [48%N] => Some 0%N
  | 48%N :: _ => None
  | _ =>
      if forallb (λ c, (48 <=? c) && (c <=? 57))%N k
      then Some (fold_left (λ acc c, acc * 10 + (c - 48)) k 0)%N
      else None
  end.

(** The element at index [i], none at or beyond the length. *)
Definition nth_item {A} (items : list A) (i : N) : option A :=
  if (i <? N.of_nat (length items))%N then items !! N.to_nat i else None.

(** A length as a Number. *)
Fixpoint number_of_nat (n : nat) : float :=
  match n with
  | O => 0%float
  | S n' => (number_of_nat n' + 1)%float
  end.

(** The value of [v.k] and of [v[k]] for a [v] that is not [undefined] or
    [null]: an own property, [undefined] when [v] has none under [k]. An
    object has the properties it lists; an array has its elements under their
    indices and its [length]; a string has its code units, as strings of
    length one, under their indices and its [length]; numbers and booleans
    have none. Inherited properties are not data: each is a method or a
    prototype object, none of which has a property of its own under the
    names the sources below read next ([config], [transition_mode], ...), so
    a read that passes through one ends in [undefined], as it does here. *)
Definition field (v : value) (k : jsstring) : value :=
  match v with
  | VObj fields => default VUndefined (assoc k fields)
  | VArr items =>
      if bool_decide (k = js "length")
      then VNum (number_of_nat (length items))
      else match array_index k with
           | Some i => default VUndefined (nth_item items i)
           | None => VUndefined
           end
  | VStr s =>
      if bool_decide (k = js "length")
      then VNum (number_of_nat (length s))
      else match array_index k with
           | Some i => from_option (λ c, VStr [c]) VUndefined (nth_item s i)
           | None => VUndefined
           end
  | _ => VUndefined
  end.

End JS.
Import JS.

(** ** The route table ([frontend/src/routes/views.jsx]) *)
Module Views.

(** The imported icons and view components, opaque to the table. *)
Inductive Icon :=
| Dashboard | List | Settings | Tune
| SaveAltIcon | BuildIcon | DeviceHubIcon | PowerIcon.

Inductive View :=
| BladeboardDnDView | DevicesView | ScenesView | DisplayView
| VirtualsView | IntegrationsView | AdvancedView | DeveloperView.

(** A route object. A property the literal does not write is [None]. *)
Record route := {
  path : jsstring;
  sidebarName : option jsstring;
  navbarName : option jsstring;
  icon : option Icon;
  component : option View;
  redirect : option bool;
  to : option jsstring;
}.

#[global] Instance Icon_eq_dec : EqDecision Icon.
Proof. solve_decision. Defined.
#[global] Instance View_eq_dec : EqDecision View.
Proof. solve_decision. Defined.
#[global] Instance route_eq_dec : EqDecision route.
Proof. solve_decision. Defined.

(** *** [window.localStorage] and [parseInt] *)

(** [localStorage.getItem(k)]: the stored string, [null] ([None]) when the
    key is absent. *)
Definition getItem (localStorage : gmap jsstring jsstring) (k : jsstring)
  : option jsstring :=
  localStorage !! k.

(** [ToString] of what [getItem] returns: [null] becomes ["null"]. *)
Definition ToString (item : option jsstring) : jsstring :=
  default (js "null") item.

(** [StrWhiteSpaceChar]: white space and line terminators. *)
Definition is_white_space (c : N) : bool :=
  bool_decide (c ∈ [0x09; 0x0A; 0x0B; 0x0C; 0x0D; 0x20; 0xA0; 0x1680;
                    0x2028; 0x2029; 0x202F; 0x205F; 0x3000; 0xFEFF]%N)
  || ((0x2000 <=? c) && (c <=? 0x200A))%N.

Fixpoint trim_start (s : jsstring) : jsstring :=
  match s with
  | c :: s' => if is_white_space c then trim_start s' else s
  | [] => []
  end.

(** The value of a code unit as a digit: 0-9, then a-z and A-Z as 10-35. *)
Definition digit_value (c : N) : option N :=
  if ((48 <=? c) && (c <=? 57))%N then Some (c - 48)%N
  else if ((97 <=? c) && (c <=? 122))%N then Some (c - 87)%N
  else if ((65 <=? c) && (c <=? 90))%N then Some (c - 55)%N
  else None.

Definition radix_digit (R : N) (c : N) : option N :=
  match digit_value c with
  | Some d => if (d <? R)%N then Some d else None
  | None => None
  end.

(** The longest prefix of radix-[R] digits, as digit values. *)
Fixpoint digits_prefix (R : N) (s : jsstring) : list N :=
  match s with
  | c :: s' =>
      match radix_digit R c with
      | Some d => d :: digits_prefix R s'
      | None => []
      end
  | [] => []
  end.

Definition math_int (R : N) (ds : list N) : Z :=
  fold_left (λ acc d, acc * Z.of_N R + Z.of_N d) ds 0.

(** [parseInt(string)] with no radix argument, up to its last step. The
    result is [None] for [NaN] and otherwise the mathematical integer that
    was read (the sign times [mathInt] of the algorithm). The Number that
    JavaScript returns is that integer rounded to binary64: equal to it up
    to 2^53, the nearest binary64 above, [Infinity] beyond the largest one.
    Nothing below states the Number itself; the table only compares it with
    1 and 2, and rounding keeps 1 and 2 exact and keeps the order, so
    [parseInt(s) > 2] holds exactly when the integer is above 2 ([-0] is [0]
    here). *)
Definition parseInt (inputString : jsstring) : option Z :=
  let s := trim_start inputString in
  let sign := match s with 45%N :: _ => -1 | _ => 1 end in
  let s := match s with
           | 43%N :: s' | 45%N :: s' => s'
           | _ => s
           end in
  let '(R, s) := match s with
                 | 48%N :: 120%N :: s' | 48%N :: 88%N :: s' => (16%N, s')
                 | _ => (10%N, s)
                 end in
  match digits_prefix R s with
  | [] => None
  | ds => Some (sign * math_int R ds)
  end.

(** [x > n] for the result [x] of [parseInt]: false on [NaN]. *)
Definition gt (x : option Z) (n : Z) : bool :=
  match x with
  | Some z => n <? z
  | None => false
  end.

(** [parseInt(window.localStorage.getItem('BladeMod'))]. *)
Definition BladeMod (localStorage : gmap jsstring jsstring) : option Z :=
  parseInt (ToString (getItem localStorage (js "BladeMod"))).

(** *** The table *)

Definition dashboard : route :=
  {| path := js "/dashboard";
     sidebarName := Some (js "Dashboard");
     navbarName := Some (js "Dashboard");
     icon := Some Dashboard;
     component := Some BladeboardDnDView;
     redirect := None; to := None |}.

Definition virtuals (localStorage : gmap jsstring jsstring) : route :=
  if gt (BladeMod localStorage) 2
  then {| path := js "/virtuals";
          sidebarName := Some (js "Virtual Strips");
          navbarName := Some (js "Virtual Strips");
          icon := Some DeviceHubIcon;
          component := Some VirtualsView;
          redirect := None; to := None |}
  else {| path := js "/virtuals";
          sidebarName := None;
          navbarName := Some (js "Virtual Strips");
          icon := Some DeviceHubIcon;
          component := Some VirtualsView;
          redirect := None; to := None |}.

Definition integrations (localStorage : gmap jsstring jsstring) : route :=
  if gt (BladeMod localStorage) 1
  then {| path := js "/integrations";
          sidebarName := Some (js "Integrations");
          navbarName := Some (js "Integrations");
          icon := Some PowerIcon;
          component := Some IntegrationsView;
          redirect := None; to := None |}
  else {| path := js "/integrations";
          sidebarName := None;
          navbarName := Some (js "Integrations");
          icon := Some PowerIcon;
          component := Some IntegrationsView;
          redirect := None; to := None |}.

Definition viewRoutes (localStorage : gmap jsstring jsstring) : list route :=
  [ dashboard;
    {| path := js "/displays/:displayId";
       navbarName := Some (js "Displays");
       sidebarName := Some (js "Displays");
       icon := Some List;
       component := Some DisplayView;
       redirect := None; to := None |};
    {| path := js "/scenes";
       sidebarName := Some (js "Scenes Management");
       navbarName := Some (js "Scenes Management");
       icon := Some SaveAltIcon;
       component := Some ScenesView;
       redirect := None; to := None |};
    {| path := js "/devices";
       sidebarName := Some (js "Device Management");
       navbarName := Some (js "Device Management");
       icon := Some Settings;
       component := Some DevicesView;
       redirect := None; to := None |};
    integrations localStorage;
    virtuals localStorage;
    {| path := js "/settings";
       sidebarName := Some (js "Settings");
       navbarName := Some (js "Settings");
       icon := Some BuildIcon;
       component := Some AdvancedView;
       redirect := None; to := None |};
    {| path := js "/developer/melbank";
       sidebarName := Some (js "Developer");
       navbarName := Some (js "Developer");
       icon := Some Tune;
       component := Some DeveloperView;
       redirect := None; to := None |};
    {| redirect := Some true; path := js "/"; to := Some (js "/dashboard");
       navbarName := Some (js "Redirect");
       sidebarName := None; icon := None; component := None |} ].

(** The string written with the decimal digits [ds] (each below 10), most
    significant first: what [localStorage.setItem('BladeMod', n)] stores for
    a natural number [n]. *)
Definition digit_chars (ds : list N) : jsstring :=
  map (λ d, (48 + d)%N) ds.

End Views.

(** ** The transition card ([TransitionCard]) *)
Module Transition.

(** What rendering and event handlers do to the outside: lines written with
    [console.log] and actions handed to the store's [dispatch]. *)
Record world := {
  console : list (list value);
  dispatched : list value;
}.

Inductive error := TypeError.

Inductive outcome (A : Type) :=
| Return (a : A)
| Throw (e : error).
Arguments Return {A} a.
Arguments Throw {A} e.

(** A computation runs in a world and returns or throws; what it wrote before
    throwing stays written. *)
Definition M (A : Type) : Type := world → outcome A * world.

#[global] Instance M_ret : MRet M := λ A a w, (Return a, w).

#[global] Instance M_bind : MBind M := λ A B f m w,
  match m w with
  | (Return a, w') => f a w'
  | (Throw e, w') => (Throw e, w')
  end.

Definition throw {A} (e : error) : M A := λ w, (Throw e, w).

Definition console_log (args : list value) : M unit := λ w,
  (Return (), {| console := console w ++ [args]; dispatched := dispatched w |}).

(** [dispatch(action)] of [useDispatch()]: the store receives the action, the
    call returns it. *)
Definition dispatch (action : value) : M value := λ w,
  (Return action,
   {| console := console w; dispatched := dispatched w ++ [action] |}).

(** [v.k] and [v[k]]: a TypeError on [undefined] and [null]. *)
Definition get (v : value) (k : jsstring) : M value :=
  if nullish v then throw TypeError else mret (field v k).

(** [a && b]: [b] is evaluated only when [a] is truthy. *)
Definition js_and (a b : M value) : M value :=
  x ← a; if truthy x then b else mret x.

(** [v.map(f)] for a callback [f] without effects: a TypeError unless [v] is
    an array ([v.map] is then not a function, or cannot be read at all). *)
Definition array_map {B} (v : value) (f : value → B) : M (list B) :=
  match v with
  | VArr items => mret (map f items)
  | _ => throw TypeError
  end.

(** *** React elements *)

Inductive tag :=
| Card | CardHeader | CardContent | FormControl
| InputLabel | Select | MenuItem | Slider.

#[global] Instance tag_eq_dec : EqDecision tag.
Proof. solve_decision. Defined.

(** An attribute is data or an event handler, called with the event's
    arguments. *)
Inductive prop :=
| PValue (v : value)
| PHandler (h : list value → M value).

(** A JSX element with its attributes and children, a text or [{expression}]
    child, or an array of nodes given as one child. *)
Inductive node :=
| Elem (t : tag) (props : list (jsstring * prop)) (children : list node)
| Child (v : value)
| Items (items : list node).

(** *** Hooks and props *)

(** What the hooks read: [class_name k] is the class name [makeStyles]
    generated for the style rule [k], [state] is the store's state. *)
Record hooks := {
  class_name : jsstring → jsstring;
  state : value;
}.

(** [useStyles()]: the style sheet has the rules [content] and [actions]. *)
Definition useStyles (h : hooks) : value :=
  VObj [ (js "content", VStr (class_name h (js "content")));
         (js "actions", VStr (class_name h (js "actions"))) ].

Definition useSelector (h : hooks) (selector : value → M value) : M value :=
  selector (state h).

(** The [display] prop: an object whose [id] is the string that names the
    display, used as a property key in [display.config[display.id]]. *)
Record display_prop := {
  display_id : jsstring;
  display_config : value;
}.

(** [{ display, config, addDisplay }]; [addDisplay] is an action creator. *)
Record props := {
  display : display_prop;
  config : value;
  addDisplay : value → value;
}.

(** *** The component *)

(** [display.config[display.id] && display.config[display.id].config &&
    display.config[display.id].config.<name>] *)
Definition nested_config (p : props) (name : jsstring) : M value :=
  let entry := get (display_config (display p)) (display_id (display p)) in
  js_and
    (js_and entry (e ← entry; get e (js "config")))
    (e ← entry; c ← get e (js "config"); get c name).

Definition transition_mode (p : props) : M value :=
  nested_config p (js "transition_mode").

Definition transition_time (p : props) : M value :=
  nested_config p (js "transition_time").

(** [handleSetTransition(displayId, config)]: the handler it returns. *)
Definition handleSetTransition (p : props) (displayId config : value)
  : list value → M value :=
  λ _, dispatch (addDisplay p (VObj [ (js "id", displayId);
                                      (js "config", config) ]));;
       mret VUndefined.

Definition addDevice : list value → M value :=
  λ _, console_log [VStr (js "adding now")];; mret VUndefined.

(** [mode => <MenuItem value={mode}>{mode}</MenuItem>], the callback given
    to [enum.map] below. *)
Definition menu_item (mode : value) : node :=
  Elem MenuItem [ (js "value", PValue mode) ] [ Child mode ].

Definition TransitionCard (h : hooks) (p : props) : M node :=
  let classes := useStyles h in
  schemas ← useSelector h (λ state,
    s ← get state (js "schemas");
    d ← get s (js "displays");
    sc ← get d (js "schema");
    get sc (js "properties"));
  mode ← transition_mode p;
  time ← transition_time p;
  console_log [VStr (js "YZ-NOTMATT1:"); mode; time];;
  tm ← get schemas (js "transition_mode");
  enum ← get tm (js "enum");
  tt ← get schemas (js "transition_time");
  console_log [VStr (js "YZ-NOTMATT2:"); enum; tt];;
  content ← get classes (js "content");
  formControl ← get classes (js "formControl");
  tm ← get schemas (js "transition_mode");
  enum ← get tm (js "enum");
  items ← array_map enum menu_item;
  tt ← get schemas (js "transition_time");
  defaultValue ← get tt (js "default");
  tt ← get schemas (js "transition_time");
  min ← get tt (js "minimum");
  tt ← get schemas (js "transition_time");
  max ← get tt (js "maximum");
  mret
    (Elem Card [ (js "variant", PValue (VStr (js "outlined"))) ]
      [ Elem CardHeader
          [ (js "title", PValue (VStr (js "Transitions")));
            (js "subheader",
             PValue (VStr (js "Seamlessly blend between effects"))) ] [];
        Elem CardContent [ (js "className", PValue content) ]
          [ Elem FormControl [ (js "className", PValue formControl) ]
              [ Elem InputLabel
                  [ (js "id",
                     PValue (VStr (js "demo-simple-select-helper-label"))) ]
                  [ Child (VStr
                      (js "Save this effect configuration as a preset")) ];
                Elem Select [ (js "onChange", PHandler addDevice) ]
                  [ Items items ] ];
            Elem Slider
              [ (js "defaultValue", PValue defaultValue);
                (js "aria-labelledby",
                 PValue (VStr (js "discrete-slider-always")));
                (* step={0.1}: the binary64 nearest to 0.1 *)
                (js "step", PValue (VNum 0x1.999999999999ap-4));
                (js "min", PValue min);
                (js "max", PValue max);
                (js "valueLabelDisplay", PValue (VStr (js "on"))) ] [] ] ]).

(** *** Reading a rendered tree *)

(** A node and everything below it, in document order. *)
Fixpoint descendants (n : node) : list node :=
  n :: match n with
       | Elem _ _ children => flat_map descendants children
       | Child _ => []
       | Items items => flat_map descendants items
       end.

(** The elements of tag [t] in a tree, each as its attributes and children. *)
Definition elements (t : tag) (n : node)
  : list (list (jsstring * prop) * list node) :=
  omap (λ d, match d with
             | Elem t' ps cs => if bool_decide (t' = t) then Some (ps, cs) else None
             | _ => None
             end) (descendants n).

(** [dig v [k1; ...; kn]] is the value of [v.k1. ... .kn], [None] when reading
    it throws. *)
Fixpoint dig (v : value) (ks : list jsstring) : option value :=
  match ks with
  | [] => Some v
  | k :: ks' => if nullish v then None else dig (field v k) ks'
  end.

(** What [nested_config p name] evaluates to when [display.config] can be
    indexed: the first falsy operand of the conjunction, or the last one. *)
Definition nested_value (p : props) (name : jsstring) : value :=
  let entry := field (display_config (display p)) (display_id (display p)) in
  let c := field entry (js "config") in
  if truthy entry then if truthy c then field c name else c else entry.

(** [m] run in [w] returns [a] and leaves the world [w']. *)
Definition returns {A} (m : M A) (w : world) (a : A) (w' : world) : Prop :=
  m w = (Return a, w').

(** *** A sample render *)

Definition sample_schemas : value :=
  VObj [ (js "transition_mode",
          VObj [ (js "enum", VArr [ VStr (js "Add"); VStr (js "Dissolve");
                                    VStr (js "Push") ]) ]);
         (js "transition_time",
          VObj [ (js "default", VNum 0.5); (js "minimum", VNum 0);
                 (js "maximum", VNum 5) ]) ].

Definition sample_hooks : hooks :=
  {| class_name := λ k, js "makeStyles-" ++ k;
     state :=
       VObj [ (js "schemas",
               VObj [ (js "displays",
                       VObj [ (js "schema",
                               VObj [ (js "properties",
                                       sample_schemas) ]) ]) ]) ] |}.

(** A display that has no entry under its own id yet; the action creator of
    the sample wraps its payload. *)
Definition sample_props : props :=
  {| display := {| display_id := js "strip-1"; display_config := VObj [] |};
     config := VUndefined;
     addDisplay := λ payload,
       VObj [ (js "type", VStr (js "displays/DISPLAY_ADD"));
              (js "payload", payload) ] |}.

(** A display whose entry is there, without a [config]. *)
Definition bare_props : props :=
  {| display :=
       {| display_id := js "strip-1";
          display_config := VObj [ (js "strip-1", VObj []) ] |};
     config := VUndefined;
     addDisplay := addDisplay sample_props |}.

Definition empty_world : world := {| console := []; dispatched := [] |}.

(** The event handlers a tree holds, in document order: each with the tag
    and the attribute that carries it. *)
Definition handlers (n : node)
  : list (tag * jsstring * (list value → M value)) :=
  flat_map (λ d, match d with
                 | Elem t ps _ =>
                     omap (λ '(k, a), match a with
                                      | PHandler h => Some (t, k, h)
                                      | PValue _ => None
                                      end) ps
                 | _ => []
                 end) (descendants n).

(** A display whose entry holds a transition configuration. *)
Definition configured_props : props :=
  {| display :=
       {| display_id := js "strip-1";
          display_config :=
            VObj [ (js "strip-1",
                    VObj [ (js "config",
                            VObj [ (js "transition_mode",
                                    VStr (js "Dissolve"));
                                   (js "transition_time", VNum 0.5) ]) ]) ] |};
     config := VUndefined;
     addDisplay := addDisplay sample_props |}.

(** A display whose entry is the number 0. *)
Definition zero_entry_props : props :=
  {| display :=
       {| display_id := js "strip-1";
          display_config := VObj [ (js "strip-1", VNum 0) ] |};
     config := VUndefined;
     addDisplay := addDisplay sample_props |}.

(** A display whose [config] is an array, indexed by the id ['0']. *)
Definition array_props : props :=
  {| display :=
       {| display_id := js "0";
          display_config :=
            VArr [ VObj [ (js "config",
                           VObj [ (js "transition_mode", VStr (js "Add"));
                                  (js "transition_time", VNum 1) ]) ] ] |};
     config := VUndefined;
     addDisplay := addDisplay sample_props |}.

(** A display without a [config] object. *)
Definition unconfigured_props : props :=
  {| display :=
       {| display_id := js "strip-1"; display_config := VUndefined |};
     config := VUndefined;
     addDisplay := addDisplay sample_props |}.

(** The [transition_time] schema and the modes of the sample store. *)
Definition sample_time : value :=
  VObj [ (js "default", VNum 0.5); (js "minimum", VNum 0);
         (js "maximum", VNum 5) ].

Definition sample_modes : list value :=
  [ VStr (js "Add"); VStr (js "Dissolve"); VStr (js "Push") ].

End Transition.

(** ** The system API client *)
Module Api.

(** The client module imports [api] from ['utils/api'] and only calls its
    methods [get], [put] and [post]: it is written against this interface.
    A call runs in [M] and hands back a promise. *)
Class ApiClient (M : Type → Type) (promise : Type) := {
  api_get : jsstring → M promise;
  api_put : jsstring → value → M promise;
  api_post : jsstring → value → M promise;
}.

Section client.
Context {M : Type → Type} {promise : Type} {api : ApiClient M promise}.

Definition shutdown : M promise :=
  api_put (js "/shutdown") (VObj [ (js "timeout", VNum 0) ]).

Definition getSystemConfig : M promise :=
  api_get (js "/config").

Definition setSystemConfig (config : value) : M promise :=
  api_post (js "/config") config.

Definition getSystemInfo : M promise :=
  api_get (js "/info").

Definition getAudioInputs : M promise :=
  api_get (js "/audio/devices").

Definition updateSelectedAudioInput (data : value) : M promise :=
  api_put (js "/audio/devices") data.

(** The six exported operations, with their arguments. *)
Inductive operation :=
| Shutdown
| GetSystemConfig
| SetSystemConfig (config : value)
| GetSystemInfo
| GetAudioInputs
| UpdateSelectedAudioInput (data : value).

Definition call (op : operation) : M promise :=
  match op with
  | Shutdown => shutdown
  | GetSystemConfig => getSystemConfig
  | SetSystemConfig config => setSystemConfig config
  | GetSystemInfo => getSystemInfo
  | GetAudioInputs => getAudioInputs
  | UpdateSelectedAudioInput data => updateSelectedAudioInput data
  end.

End client.

(** *** HTTP *)

Inductive method := GET | PUT | POST.

(** A request: verb, path below the API's base URL, and the body when the
    call was given one. *)
Record request := {
  verb : method;
  url : jsstring;
  body : option value;
}.

(** How a request ends: the promise is fulfilled with the reply or rejected
    with the failure. *)
Inductive response :=
| Resolved (reply : value)
| Rejected (reason : value).

(** The backend: its answer to a request may depend on the requests it has
    received so far. *)
Definition server : Type := list request → request → response.

(** Calls run against a server and add to the list of requests sent. *)
Definition Http (A : Type) : Type := list request → A * list request.

Definition send (sv : server) (r : request) : Http response :=
  λ sent, (sv sent r, sent ++ [r]).

(** What one call leaves behind: the request it sent, after those sent
    before, and the server's response to it as the result. *)
Definition one_request (sv : server) (sent : list request) (r : request)
  : response * list request :=
  (sv sent r, sent ++ [r]).

(** Modelled from the spec: the module ['utils/api'] is not part of the
    sources at hand. The spec calls it the underlying API client, wrapping
    the HTTP verbs, to which HTTP failures are left: [api.get(path)],
    [api.put(path, data)] and [api.post(path, data)] each send one request
    with that verb, path and body, and return the promise of its response. *)
#[global] Instance http_api (sv : server) : ApiClient Http response := {
  api_get path := send sv {| verb := GET; url := path; body := None |};
  api_put path data := send sv {| verb := PUT; url := path; body := Some data |};
  api_post path data := send sv {| verb := POST; url := path; body := Some data |};
}.

End Api.

(** * Properties *)

(** ** The route table *)
Module ViewsFacts.
Import Views.

(** Concrete runs of [parseInt]. *)
Example parseInt_3 : parseInt (js "3") = Some 3.
Proof. reflexivity. Qed.
Example parseInt_neg : parseInt (js "  -12px") = Some (-12).
Proof. reflexivity. Qed.
Example parseInt_hex : parseInt (js "0x1F") = Some 31.
Proof. reflexivity. Qed.
Example parseInt_null : parseInt (js "null") = None.
Proof. reflexivity. Qed.
Example parseInt_empty : parseInt (js "") = None.
Proof. reflexivity. Qed.
Example parseInt_frac : parseInt (js "2.9") = Some 2.
Proof. reflexivity. Qed.

(** An absent key reads as [null], which [parseInt] sees as ["null"]. *)
Lemma BladeMod_absent (ls : gmap jsstring jsstring) :
  getItem ls (js "BladeMod") = None → BladeMod ls = None.
Proof. unfold BladeMod. intros ->. reflexivity. Qed.

Lemma gt_NaN (n : Z) : gt None n = false.
Proof. reflexivity. Qed.

Lemma gt_Some (z n : Z) : gt (Some z) n = true ↔ n < z.
Proof. unfold gt. apply Z.ltb_lt. Qed.

(** The two entries, by the outcome of their comparison. *)
Lemma virtuals_sidebarName (ls : gmap jsstring jsstring) :
  sidebarName (virtuals ls) =
  if gt (BladeMod ls) 2 then Some (js "Virtual Strips") else None.
Proof. unfold virtuals. by destruct (gt _ _). Qed.

Lemma integrations_sidebarName (ls : gmap jsstring jsstring) :
  sidebarName (integrations ls) =
  if gt (BladeMod ls) 1 then Some (js "Integrations") else None.
Proof. unfold integrations. by destruct (gt _ _). Qed.

(** The paths of the table do not depend on local storage. *)
Lemma viewRoutes_paths (ls : gmap jsstring jsstring) :
  map path (viewRoutes ls) =
  [ js "/dashboard"; js "/displays/:displayId"; js "/scenes"; js "/devices";
    js "/integrations"; js "/virtuals"; js "/settings";
    js "/developer/melbank"; js "/" ].
Proof.
  unfold viewRoutes, virtuals, integrations.
  by destruct (gt _ 1), (gt _ 2).
Qed.

Local Ltac decide_closed := apply (bool_decide_unpack _); vm_compute; exact I.

(** When the comparison of [virtuals] comes out differently for two
    storages, each table has a [/virtuals] entry the other lacks. *)
Lemma virtuals_differ (ls1 ls2 : gmap jsstring jsstring) :
  gt (BladeMod ls1) 2 ≠ gt (BladeMod ls2) 2 →
  virtuals ls1 ∈ viewRoutes ls1 ∧ (virtuals ls1 ∉ viewRoutes ls2) ∧
  virtuals ls2 ∈ viewRoutes ls2 ∧ (virtuals ls2 ∉ viewRoutes ls1).
Proof.
  unfold viewRoutes, virtuals, integrations.
  destruct (gt (BladeMod ls1) 2), (gt (BladeMod ls2) 2),
    (gt (BladeMod ls1) 1), (gt (BladeMod ls2) 1);
    intros Hne; try done; split_and!; decide_closed.
Qed.

Lemma integrations_differ (ls1 ls2 : gmap jsstring jsstring) :
  gt (BladeMod ls1) 1 ≠ gt (BladeMod ls2) 1 →
  integrations ls1 ∈ viewRoutes ls1 ∧ (integrations ls1 ∉ viewRoutes ls2) ∧
  integrations ls2 ∈ viewRoutes ls2 ∧ (integrations ls2 ∉ viewRoutes ls1).
Proof.
  unfold viewRoutes, virtuals, integrations.
  destruct (gt (BladeMod ls1) 2), (gt (BladeMod ls2) 2),
    (gt (BladeMod ls1) 1), (gt (BladeMod ls2) 1);
    intros Hne; try done; split_and!; decide_closed.
Qed.

Lemma gt_differ (n1 n2 t : Z) :
  ¬ (t < n1 ↔ t < n2) → gt (Some n1) t ≠ gt (Some n2) t.
Proof.
  intros Hside Heq. apply Hside. rewrite <- !gt_Some, Heq. done.
Qed.

(** C2. The BladeMod integer of local storage gates the table: for two
    storages whose BladeMod integers lie on different sides of a threshold
    (one greater than 2 and the other not, or one greater than 1 and the
    other not), [viewRoutes] holds different sets of route entries: each
    table has an entry that is missing from the other; the two entries have
    the same path, and exactly one of them carries a [sidebarName], the name
    under which a route is listed in the sidebar. *)
Theorem BladeMod_gates_viewRoutes
    (ls1 ls2 : gmap jsstring jsstring) (n1 n2 : Z) :
  BladeMod ls1 = Some n1 →
  BladeMod ls2 = Some n2 →
  ¬ (2 < n1 ↔ 2 < n2) ∨ ¬ (1 < n1 ↔ 1 < n2) →
  ∃ r1 r2 : route,
    r1 ∈ viewRoutes ls1 ∧ (r1 ∉ viewRoutes ls2) ∧
    r2 ∈ viewRoutes ls2 ∧ (r2 ∉ viewRoutes ls1) ∧
    path r1 = path r2 ∧
    (is_Some (sidebarName r1) ∧ sidebarName r2 = None ∨
     sidebarName r1 = None ∧ is_Some (sidebarName r2)).
Proof.
  intros H1 H2 [Hside | Hside].
  - apply gt_differ in Hside. rewrite <- H1, <- H2 in Hside.
    exists (virtuals ls1), (virtuals ls2).
    destruct (virtuals_differ ls1 ls2 Hside) as (? & ? & ? & ?).
    split_and!; try done.
    + unfold virtuals. by destruct (gt _ 2), (gt _ 2).
    + rewrite !virtuals_sidebarName.
      destruct (gt (BladeMod ls1) 2), (gt (BladeMod ls2) 2); try done;
        [left | right]; split; eauto.
  - apply gt_differ in Hside. rewrite <- H1, <- H2 in Hside.
    exists (integrations ls1), (integrations ls2).
    destruct (integrations_differ ls1 ls2 Hside) as (? & ? & ? & ?).
    split_and!; try done.
    + unfold integrations. by destruct (gt _ 1), (gt _ 1).
    + rewrite !integrations_sidebarName.
      destruct (gt (BladeMod ls1) 1), (gt (BladeMod ls2) 1); try done;
        [left | right]; split; eauto.
Qed.

(** A storage with BladeMod 3 and one with BladeMod 2. *)
Lemma BladeMod_gates_viewRoutes_witness :
  ∃ r1 r2 : route,
    r1 ∈ viewRoutes {[ js "BladeMod" := js "3" ]} ∧
    (r1 ∉ viewRoutes {[ js "BladeMod" := js "2" ]}) ∧
    r2 ∈ viewRoutes {[ js "BladeMod" := js "2" ]} ∧
    (r2 ∉ viewRoutes {[ js "BladeMod" := js "3" ]}) ∧
    path r1 = path r2 ∧
    (is_Some (sidebarName r1) ∧ sidebarName r2 = None ∨
     sidebarName r1 = None ∧ is_Some (sidebarName r2)).
Proof.
  apply (BladeMod_gates_viewRoutes
           {[ js "BladeMod" := js "3" ]} {[ js "BladeMod" := js "2" ]} 3 2).
  - vm_compute. reflexivity.
  - vm_compute. reflexivity.
  - left. lia.
Defined.

(** C8. Whatever local storage holds, the [virtuals] entry and the
    [integrations] entry are fixed up to their [sidebarName]: path,
    navbarName, icon and component are the same in both branches of the
    conditional, and no other property appears. The dashboard entry heads
    the table and is one fixed object, with path [/dashboard] and component
    [BladeboardDnDView]. *)
Theorem branches_differ_in_sidebarName_only (ls : gmap jsstring jsstring) :
  (∃ name : option jsstring,
     virtuals ls =
     {| path := js "/virtuals"; sidebarName := name;
        navbarName := Some (js "Virtual Strips");
        icon := Some DeviceHubIcon; component := Some VirtualsView;
        redirect := None; to := None |} ∧
     (name = Some (js "Virtual Strips") ∨ name = None)) ∧
  (∃ name : option jsstring,
     integrations ls =
     {| path := js "/integrations"; sidebarName := name;
        navbarName := Some (js "Integrations");
        icon := Some PowerIcon; component := Some IntegrationsView;
        redirect := None; to := None |} ∧
     (name = Some (js "Integrations") ∨ name = None)) ∧
  viewRoutes ls !! 0%nat = Some dashboard ∧
  path dashboard = js "/dashboard" ∧
  component dashboard = Some BladeboardDnDView.
Proof.
  split_and!; try reflexivity.
  - unfold virtuals. destruct (gt _ 2); eexists; split; eauto.
  - unfold integrations. destruct (gt _ 1); eexists; split; eauto.
Qed.

(** C9. When the key ['BladeMod'] is absent from local storage, or its value
    does not parse to a number, both comparisons are false and the
    [virtuals] and [integrations] entries are the ones without a
    [sidebarName]. Whatever local storage holds, the table is built, with its
    nine entries. *)
Theorem BladeMod_missing_or_NaN (ls : gmap jsstring jsstring) :
  (getItem ls (js "BladeMod") = None ∨ BladeMod ls = None →
   gt (BladeMod ls) 2 = false ∧
   gt (BladeMod ls) 1 = false ∧
   sidebarName (virtuals ls) = None ∧
   sidebarName (integrations ls) = None) ∧
  ∃ table : list route,
    viewRoutes ls = table ∧ length table = 9%nat ∧
    map path table =
    [ js "/dashboard"; js "/displays/:displayId"; js "/scenes";
      js "/devices"; js "/integrations"; js "/virtuals"; js "/settings";
      js "/developer/melbank"; js "/" ].
Proof.
  split.
  - intros Hnan.
    assert (BladeMod ls = None) as HNaN.
    { destruct Hnan as [Habsent | ?]; [by apply BladeMod_absent | done]. }
    rewrite virtuals_sidebarName, integrations_sidebarName, HNaN.
    split_and!; reflexivity.
  - exists (viewRoutes ls). split_and!; [done | done | apply viewRoutes_paths].
Qed.

(** An empty storage, and one whose BladeMod is not a number. *)
Lemma BladeMod_missing_or_NaN_witness :
  sidebarName (virtuals ∅) = None ∧
  sidebarName (integrations {[ js "BladeMod" := js "on" ]}) = None.
Proof.
  split.
  - apply (proj1 (BladeMod_missing_or_NaN ∅)). left. reflexivity.
  - apply (proj1 (BladeMod_missing_or_NaN {[ js "BladeMod" := js "on" ]})).
    right. vm_compute. reflexivity.
Defined.

(** *** Further properties of the table *)

(** X1. The two gates are nested: a table that lists Virtual Strips in the
    sidebar lists Integrations too. *)
Theorem virtuals_listed_implies_integrations_listed
    (ls : gmap jsstring jsstring) :
  is_Some (sidebarName (virtuals ls)) →
  is_Some (sidebarName (integrations ls)).
Proof.
  rewrite virtuals_sidebarName, integrations_sidebarName.
  destruct (BladeMod ls) as [n|]; unfold gt.
  - destruct (Z.ltb_spec 2 n), (Z.ltb_spec 1 n); try done. lia.
  - by intros [? ?].
Qed.

Lemma virtuals_listed_implies_integrations_listed_witness :
  is_Some (sidebarName (integrations {[ js "BladeMod" := js "3" ]})).
Proof.
  apply (virtuals_listed_implies_integrations_listed
           {[ js "BladeMod" := js "3" ]}).
  vm_compute. eauto.
Defined.

(** X2. The entries that carry a [sidebarName], in table order: the four
    fixed ones, Integrations when BladeMod is above 1, Virtual Strips when it
    is above 2, then Settings and Developer. The redirect is never among
    them. *)
Theorem sidebar_entries (ls : gmap jsstring jsstring) :
  map path (filter (λ r, is_Some (sidebarName r)) (viewRoutes ls)) =
  [ js "/dashboard"; js "/displays/:displayId"; js "/scenes"; js "/devices" ]
  ++ (if gt (BladeMod ls) 1 then [ js "/integrations" ] else [])
  ++ (if gt (BladeMod ls) 2 then [ js "/virtuals" ] else [])
  ++ [ js "/settings"; js "/developer/melbank" ].
Proof.
  unfold viewRoutes, virtuals, integrations.
  by destruct (gt (BladeMod ls) 1), (gt (BladeMod ls) 2).
Qed.

(** X3. Whatever local storage holds, no two entries of the table have the
    same path; the table has one redirect, its last entry, from [/] to
    [/dashboard], and [/dashboard] is the path of an entry with a
    component. *)
Theorem viewRoutes_paths_distinct_and_redirect_resolves
    (ls : gmap jsstring jsstring) :
  NoDup (map path (viewRoutes ls)) ∧
  filter (λ r, redirect r = Some true) (viewRoutes ls) =
    [ {| path := js "/"; sidebarName := None;
         navbarName := Some (js "Redirect"); icon := None; component := None;
         redirect := Some true; to := Some (js "/dashboard") |} ] ∧
  last (viewRoutes ls) =
    Some {| path := js "/"; sidebarName := None;
            navbarName := Some (js "Redirect"); icon := None;
            component := None;
            redirect := Some true; to := Some (js "/dashboard") |} ∧
  ∃ target : route,
    target ∈ viewRoutes ls ∧ path target = js "/dashboard" ∧
    component target = Some BladeboardDnDView.
Proof.
  split_and!.
  - rewrite viewRoutes_paths. decide_closed.
  - unfold viewRoutes, virtuals, integrations.
    by destruct (gt (BladeMod ls) 1), (gt (BladeMod ls) 2).
  - reflexivity.
  - exists dashboard. split_and!; [|done|done].
    unfold viewRoutes. apply list_elem_of_here.
Qed.

(** X4. Every entry of the table has a [navbarName]; an entry that is not the
    redirect has an icon and a component and no [to]; and where an entry has
    a [sidebarName], it is its [navbarName]. *)
Theorem viewRoutes_entries_well_formed
    (ls : gmap jsstring jsstring) (r : route) :
  r ∈ viewRoutes ls →
  is_Some (navbarName r) ∧
  (redirect r = None →
   is_Some (icon r) ∧ is_Some (component r) ∧ to r = None) ∧
  (is_Some (sidebarName r) → sidebarName r = navbarName r).
Proof.
  unfold viewRoutes, virtuals, integrations.
  destruct (gt (BladeMod ls) 1), (gt (BladeMod ls) 2);
    rewrite !elem_of_cons, elem_of_nil;
    intros Hr; repeat destruct Hr as [-> | Hr]; try done;
    (split_and!; [by eauto | intros; split_and!; by eauto | by intros [? ?]]).
Qed.

Lemma viewRoutes_entries_well_formed_witness :
  is_Some (navbarName (virtuals ∅)) ∧
  (redirect (virtuals ∅) = None →
   is_Some (icon (virtuals ∅)) ∧ is_Some (component (virtuals ∅)) ∧
   to (virtuals ∅) = None) ∧
  (is_Some (sidebarName (virtuals ∅)) →
   sidebarName (virtuals ∅) = navbarName (virtuals ∅)).
Proof.
  apply (viewRoutes_entries_well_formed ∅ (virtuals ∅)).
  unfold viewRoutes. do 5 apply list_elem_of_further. apply list_elem_of_here.
Defined.

(** *** Reading a stored numeral *)

Lemma decimal_digit_cases (d : N) :
  (d < 10)%N →
  (48 + d)%N ∈ [48; 49; 50; 51; 52; 53; 54; 55; 56; 57]%N ∧
  radix_digit 10 (48 + d) = Some d.
Proof.
  intros Hd.
  assert (d = 0 ∨ d = 1 ∨ d = 2 ∨ d = 3 ∨ d = 4 ∨ d = 5 ∨ d = 6 ∨ d = 7
          ∨ d = 8 ∨ d = 9)%N as Hcases by lia.
  repeat destruct Hcases as [-> | Hcases]; try subst d;
    (split; [decide_closed | reflexivity]).
Qed.

Lemma digits_prefix_digit_chars (ds : list N) :
  Forall (λ d, (d < 10)%N) ds → digits_prefix 10 (digit_chars ds) = ds.
Proof.
  induction 1 as [|d ds Hd _ IH]; [done|].
  simpl. destruct (decimal_digit_cases d Hd) as [_ ->]. by rewrite IH.
Qed.

Local Ltac eval_white_space :=
  match goal with
  | |- context [is_white_space ?c] =>
      let b := eval vm_compute in (is_white_space c) in
      change (is_white_space c) with b
  end.

(** A string that starts with a decimal digit, and not with [0x] or [0X], is
    read in radix 10, with no sign. *)
Lemma parseInt_unsigned_decimal (c : N) (t : jsstring) :
  c ∈ [48; 49; 50; 51; 52; 53; 54; 55; 56; 57]%N →
  (c = 48%N → t = [] ∨ ∃ x t', t = x :: t' ∧
                 x ∈ [48; 49; 50; 51; 52; 53; 54; 55; 56; 57]%N) →
  parseInt (c :: t) =
  match digits_prefix 10 (c :: t) with
  | [] => None
  | ds => Some (math_int 10 ds)
  end.
Proof.
  intros Hc Hzero. unfold parseInt. cbn [trim_start].
  rewrite !elem_of_cons, elem_of_nil in Hc.
  destruct Hc as [-> | Hc].
  - destruct Hzero as [-> | (x & t' & -> & Hx)]; [done| reflexivity |].
    rewrite !elem_of_cons, elem_of_nil in Hx.
    eval_white_space. cbv beta iota zeta.
    repeat destruct Hx as [-> | Hx]; try done;
      cbv beta iota zeta;
      destruct (digits_prefix _ _); by rewrite ?Z.mul_1_l.
  - repeat destruct Hc as [-> | Hc]; try done;
      eval_white_space; cbv beta iota zeta;
      destruct (digits_prefix _ _); by rewrite ?Z.mul_1_l.
Qed.

(** The flag of the model for a stored numeral: the integer it writes. *)
Lemma BladeMod_digit_chars (ls : gmap jsstring jsstring) (ds : list N) :
  ds ≠ [] →
  Forall (λ d, (d < 10)%N) ds →
  getItem ls (js "BladeMod") = Some (digit_chars ds) →
  BladeMod ls = Some (math_int 10 ds).
Proof.
  intros Hne Hds Hitem.
  unfold BladeMod. rewrite Hitem.
  change (ToString (Some (digit_chars ds))) with (digit_chars ds).
  destruct ds as [|d ds']; [done|]. clear Hne.
  change (digit_chars (d :: ds')) with ((48 + d)%N :: digit_chars ds').
  rewrite parseInt_unsigned_decimal.
  - change ((48 + d)%N :: digit_chars ds') with (digit_chars (d :: ds')).
    by rewrite digits_prefix_digit_chars.
  - apply Forall_cons in Hds as [Hd _]. by apply decimal_digit_cases.
  - intros _. destruct ds' as [|d' ds'']; [by left | right].
    exists (48 + d')%N, (digit_chars ds''). split; [done|].
    apply Forall_cons in Hds as [_ Hds].
    apply Forall_cons in Hds as [Hd' _]. by apply decimal_digit_cases.
Qed.

(** X5. When the value stored under ['BladeMod'] is a numeral, a non-empty
    string of decimal digits, the two gates open exactly when the number it
    writes is above their thresholds: Virtual Strips is listed when the
    number is above 2, Integrations when it is above 1. Leading zeros do not
    matter, and the numeral is never read as hexadecimal. *)
Theorem gates_of_stored_numeral
    (ls : gmap jsstring jsstring) (ds : list N) :
  ds ≠ [] →
  Forall (λ d, (d < 10)%N) ds →
  getItem ls (js "BladeMod") = Some (digit_chars ds) →
  (is_Some (sidebarName (virtuals ls)) ↔ 2 < math_int 10 ds) ∧
  (is_Some (sidebarName (integrations ls)) ↔ 1 < math_int 10 ds).
Proof.
  intros Hne Hds Hitem.
  rewrite virtuals_sidebarName, integrations_sidebarName.
  rewrite (BladeMod_digit_chars ls ds Hne Hds Hitem). unfold gt.
  split.
  - destruct (Z.ltb_spec 2 (math_int 10 ds)); split; try done; try lia;
      by intros [? ?].
  - destruct (Z.ltb_spec 1 (math_int 10 ds)); split; try done; try lia;
      by intros [? ?].
Qed.

(** The numerals 12 and 002. *)
Lemma gates_of_stored_numeral_witness :
  (is_Some (sidebarName
              (virtuals {[ js "BladeMod" := digit_chars [1; 2]%N ]}))
   ↔ 2 < 12) ∧
  (is_Some (sidebarName
              (virtuals {[ js "BladeMod" := digit_chars [0; 0; 2]%N ]}))
   ↔ 2 < 2).
Proof.
  split.
  - apply (gates_of_stored_numeral
             {[ js "BladeMod" := digit_chars [1; 2]%N ]} [1; 2]%N).
    + discriminate.
    + repeat constructor.
    + vm_compute. reflexivity.
  - apply (gates_of_stored_numeral
             {[ js "BladeMod" := digit_chars [0; 0; 2]%N ]} [0; 0; 2]%N).
    + discriminate.
    + repeat constructor.
    + vm_compute. reflexivity.
Defined.

End ViewsFacts.

(** ** The transition card *)
Module TransitionFacts.
Import Transition.

(** Concrete runs of [ToBoolean] and of property reads. *)
Example truthy_numbers :
  truthy (VNum 0) = false ∧ truthy (VNum (-0)) = false ∧
  truthy (VNum nan) = false ∧ truthy (VNum 0.5) = true.
Proof. by vm_compute. Qed.
Example truthy_strings :
  truthy (VStr (js "")) = false ∧ truthy (VStr (js "0")) = true.
Proof. by vm_compute. Qed.
Example get_undefined_throws :
  get VUndefined (js "config") empty_world = (Throw TypeError, empty_world).
Proof. reflexivity. Qed.
Example get_missing_field :
  get (VObj []) (js "config") empty_world = (Return VUndefined, empty_world).
Proof. reflexivity. Qed.
Example map_of_undefined_throws :
  array_map VUndefined menu_item empty_world = (Throw TypeError, empty_world).
Proof. reflexivity. Qed.

Example field_of_array :
  field (VArr [ VStr (js "a"); VStr (js "b") ]) (js "1") = VStr (js "b") ∧
  field (VArr [ VStr (js "a"); VStr (js "b") ]) (js "2") = VUndefined ∧
  field (VArr [ VStr (js "a"); VStr (js "b") ]) (js "01") = VUndefined ∧
  field (VArr [ VStr (js "a"); VStr (js "b") ]) (js "length") = VNum 2 ∧
  field (VArr []) (js "length") = VNum 0.
Proof. by vm_compute. Qed.
Example field_of_string :
  field (VStr (js "ab")) (js "0") = VStr (js "a") ∧
  field (VStr (js "ab")) (js "length") = VNum 2 ∧
  field (VStr (js "")) (js "length") = VNum 0 ∧
  field (VStr (js "ab")) (js "config") = VUndefined.
Proof. by vm_compute. Qed.
Example field_of_number : field (VNum 5) (js "config") = VUndefined.
Proof. reflexivity. Qed.

(** *** Running computations *)

Lemma returns_ret {A} (a : A) (w : world) : returns (mret a) w a w.
Proof. reflexivity. Qed.

Lemma returns_bind {A B} (m : M A) (f : A → M B) w a w1 b w2 :
  returns m w a w1 → returns (f a) w1 b w2 → returns (m ≫= f) w b w2.
Proof. unfold returns, mbind, M_bind. by intros ->. Qed.

Lemma returns_get (v : value) (k : jsstring) (w : world) :
  nullish v = false → returns (get v k) w (field v k) w.
Proof. unfold returns, get. by intros ->. Qed.

Lemma returns_console_log (args : list value) (w : world) :
  returns (console_log args) w ()
    {| console := console w ++ [args]; dispatched := dispatched w |}.
Proof. reflexivity. Qed.

Lemma returns_array_map {B} (items : list value) (f : value → B) w :
  returns (array_map (VArr items) f) w (map f items) w.
Proof. reflexivity. Qed.

Lemma truthy_not_nullish (v : value) : truthy v = true → nullish v = false.
Proof. by destruct v. Qed.

Lemma dig_cons (v : value) (k : jsstring) (ks : list jsstring) (r : value) :
  dig v (k :: ks) = Some r → nullish v = false ∧ dig (field v k) ks = Some r.
Proof. simpl. by destruct (nullish v). Qed.

Lemma dig_nil (v r : value) : dig v [] = Some r → v = r.
Proof. simpl. congruence. Qed.

(** The guarded read never throws on a [display.config] that can be indexed,
    and leaves the world alone. *)
Lemma nested_config_returns (p : props) (name : jsstring) (w : world) :
  nullish (display_config (display p)) = false →
  returns (nested_config p name) w (nested_value p name) w.
Proof.
  intros Hcfg. unfold returns, nested_config, nested_value, js_and, get.
  set (entry := field _ (display_id _)). set (c := field entry _).
  rewrite Hcfg. unfold mbind, M_bind, mret, M_ret. cbv beta iota.
  destruct (truthy entry) eqn:He; rewrite ?He; [|done].
  rewrite (truthy_not_nullish _ He). fold c. cbv beta iota.
  destruct (truthy c) eqn:Hc; rewrite ?Hc; [|done].
  by rewrite (truthy_not_nullish _ Hc).
Qed.

(** *** Reading a tree, node by node *)

Lemma elements_flat_map (t : tag) (ns : list node) :
  omap (λ d, match d with
             | Elem t' ps cs =>
                 if bool_decide (t' = t) then Some (ps, cs) else None
             | _ => None
             end) (flat_map descendants ns)
  = flat_map (elements t) ns.
Proof.
  induction ns as [|n ns IH]; [done|].
  simpl flat_map. rewrite omap_app, IH. done.
Qed.

Lemma elements_Elem (t t' : tag) ps cs :
  elements t (Elem t' ps cs) =
  (if bool_decide (t' = t) then [(ps, cs)] else []) ++ flat_map (elements t) cs.
Proof.
  unfold elements at 1. simpl descendants. rewrite <- elements_flat_map.
  simpl. by destruct (bool_decide (t' = t)).
Qed.

Lemma elements_Items (t : tag) (items : list node) :
  elements t (Items items) = flat_map (elements t) items.
Proof.
  unfold elements at 1. simpl descendants. by rewrite <- elements_flat_map.
Qed.

Lemma elements_Child (t : tag) (v : value) : elements t (Child v) = [].
Proof. reflexivity. Qed.

(** The menu items built from the modes, and nothing else of theirs. *)
Lemma elements_menu_items (t : tag) (modes : list value) :
  flat_map (elements t) (map menu_item modes) =
  if bool_decide (t = MenuItem)
  then map (λ mode, ([ (js "value", PValue mode) ], [ Child mode ])) modes
  else [].
Proof.
  induction modes as [|m modes IH].
  - by destruct (bool_decide _).
  - simpl map. simpl flat_map. rewrite IH. unfold menu_item at 1.
    rewrite elements_Elem. by destruct t.
Qed.

(** *** Rendering *)

Local Ltac run :=
  lazymatch goal with
  | |- returns (mret _) _ _ _ => apply returns_ret
  | |- returns (get _ _) _ _ _ =>
      apply returns_get; first [assumption | reflexivity]
  | |- returns (console_log _) _ _ _ => apply returns_console_log
  | |- returns (array_map _ _) _ _ _ =>
      match goal with
      | Harr : _ = VArr _ |- _ => rewrite Harr; apply returns_array_map
      end
  | |- returns (transition_mode _) _ _ _ =>
      apply nested_config_returns; assumption
  | |- returns (transition_time _) _ _ _ =>
      apply nested_config_returns; assumption
  | |- returns (_ ≫= _) _ _ _ =>
      eapply returns_bind; [run | cbv beta; run]
  end.

(** With the schema of the displays in the store and a [display.config] that
    can be indexed, the card renders: it returns a tree, writes its two
    console lines, and dispatches nothing. The tree has one [Select], whose
    only attribute is [onChange={addDevice}] and whose child is the array of
    menu items; its [MenuItem]s are those; and it has one [Slider]. *)
Lemma TransitionCard_returns (h : hooks) (p : props) (w : world)
    (schemas tt : value) (modes : list value) :
  dig (state h) [js "schemas"; js "displays"; js "schema"; js "properties"]
    = Some schemas →
  dig schemas [js "transition_mode"; js "enum"] = Some (VArr modes) →
  dig schemas [js "transition_time"] = Some tt →
  nullish tt = false →
  nullish (display_config (display p)) = false →
  ∃ (tree : node) (w' : world),
    returns (TransitionCard h p) w tree w' ∧
    dispatched w' = dispatched w ∧
    console w' =
      console w ++
      [ [ VStr (js "YZ-NOTMATT1:"); nested_value p (js "transition_mode");
          nested_value p (js "transition_time") ];
        [ VStr (js "YZ-NOTMATT2:"); VArr modes; tt ] ] ∧
    elements Select tree =
      [ ([ (js "onChange", PHandler addDevice) ],
         [ Items (map menu_item modes) ]) ] ∧
    elements MenuItem tree =
      map (λ mode, ([ (js "value", PValue mode) ], [ Child mode ])) modes ∧
    elements Slider tree =
      [ ([ (js "defaultValue", PValue (field tt (js "default")));
           (js "aria-labelledby", PValue (VStr (js "discrete-slider-always")));
           (js "step", PValue (VNum 0x1.999999999999ap-4));
           (js "min", PValue (field tt (js "minimum")));
           (js "max", PValue (field tt (js "maximum")));
           (js "valueLabelDisplay", PValue (VStr (js "on"))) ], []) ].
Proof.
  intros Hstate Henum Htime Htt Hcfg.
  apply dig_cons in Hstate as [? Hstate]. apply dig_cons in Hstate as [? Hstate].
  apply dig_cons in Hstate as [? Hstate]. apply dig_cons in Hstate as [? Hstate].
  apply dig_nil in Hstate. subst schemas.
  apply dig_cons in Henum as [? Henum]. apply dig_cons in Henum as [? Henum].
  apply dig_nil in Henum.
  apply dig_cons in Htime as [_ Htime]. apply dig_nil in Htime. subst tt.
  eexists _, _. split.
  { unfold TransitionCard, useSelector. run. }
  repeat (rewrite ?elements_Elem, ?elements_Items, ?elements_Child,
            ?elements_menu_items; cbn [flat_map app]).
  rewrite ?bool_decide_eq_false_2 by done.
  rewrite ?bool_decide_eq_true_2 by done.
  cbn [app]. rewrite ?app_nil_r.
  split_and!; try reflexivity.
  cbn [console dispatched]. by rewrite <- app_assoc.
Qed.

(** The handler the card defines for a change of transition does dispatch
    [addDisplay({ id, config })]; no element of the card is given it. *)
Lemma handleSetTransition_dispatches (p : props) (displayId cfg : value)
    (args : list value) (w : world) :
  returns (handleSetTransition p displayId cfg args) w VUndefined
    {| console := console w;
       dispatched :=
         dispatched w ++
         [ addDisplay p (VObj [ (js "id", displayId); (js "config", cfg) ]) ] |}.
Proof. reflexivity. Qed.

(** C1. For a store that holds the displays' schema, the card renders one
    [MenuItem] per element of [schemas.transition_mode.enum], in the order of
    the enum, as the children of its one [Select]; the [value] attribute and
    the label (the child) of each item are the enum element. It renders one
    [Slider], whose [min], [max] and [defaultValue] are
    [schemas.transition_time.minimum], [.maximum] and [.default]. *)
Theorem TransitionCard_renders_schema (h : hooks) (p : props) (w : world)
    (schemas tt : value) (modes : list value) :
  dig (state h) [js "schemas"; js "displays"; js "schema"; js "properties"]
    = Some schemas →
  dig schemas [js "transition_mode"; js "enum"] = Some (VArr modes) →
  dig schemas [js "transition_time"] = Some tt →
  nullish tt = false →
  nullish (display_config (display p)) = false →
  ∃ (tree : node) (w' : world),
    returns (TransitionCard h p) w tree w' ∧
    (∃ attrs,
       elements Select tree =
       [ (attrs,
          [ Items (map (λ mode,
                      Elem MenuItem [ (js "value", PValue mode) ]
                        [ Child mode ]) modes) ]) ]) ∧
    elements MenuItem tree =
      map (λ mode, ([ (js "value", PValue mode) ], [ Child mode ])) modes ∧
    (∃ attrs,
       elements Slider tree = [ (attrs, []) ] ∧
       assoc (js "min") attrs = Some (PValue (field tt (js "minimum"))) ∧
       assoc (js "max") attrs = Some (PValue (field tt (js "maximum"))) ∧
       assoc (js "defaultValue") attrs =
         Some (PValue (field tt (js "default")))).
Proof.
  intros Hstate Henum Htime Htt Hcfg.
  destruct (TransitionCard_returns h p w schemas tt modes)
    as (tree & w' & Hrun & _ & _ & Hselect & Hitems & Hslider); try done.
  exists tree, w'. split_and!; [done | | done | ].
  - eexists. exact Hselect.
  - eexists. split; [exact Hslider|]. split_and!; reflexivity.
Qed.

(** The sample store: three modes, and a transition time from 0 to 5 that
    starts at 0.5. *)
Lemma TransitionCard_renders_schema_witness :
  ∃ (tree : node) (w' : world),
    returns (TransitionCard sample_hooks sample_props) empty_world tree w' ∧
    elements MenuItem tree =
      [ ([ (js "value", PValue (VStr (js "Add"))) ],
         [ Child (VStr (js "Add")) ]);
        ([ (js "value", PValue (VStr (js "Dissolve"))) ],
         [ Child (VStr (js "Dissolve")) ]);
        ([ (js "value", PValue (VStr (js "Push"))) ],
         [ Child (VStr (js "Push")) ]) ] ∧
    (∃ attrs,
       elements Slider tree = [ (attrs, []) ] ∧
       assoc (js "min") attrs = Some (PValue (VNum 0)) ∧
       assoc (js "max") attrs = Some (PValue (VNum 5)) ∧
       assoc (js "defaultValue") attrs = Some (PValue (VNum 0.5))).
Proof.
  destruct (TransitionCard_renders_schema sample_hooks sample_props
              empty_world sample_schemas
              (VObj [ (js "default", VNum 0.5); (js "minimum", VNum 0);
                      (js "maximum", VNum 5) ])
              [ VStr (js "Add"); VStr (js "Dissolve"); VStr (js "Push") ])
    as (tree & w' & Hrun & _ & Hitems & Hslider); try reflexivity.
  exists tree, w'. split_and!; [exact Hrun | exact Hitems | exact Hslider].
Defined.

(** C6 (the code as it is). In the rendered card the [Select] has one
    attribute, [onChange], and the handler it holds writes ['adding now'] to
    the console and returns: whatever the event and the world, nothing is
    dispatched. Selecting a mode does not dispatch [addDisplay]. *)
Theorem Select_onChange_dispatches_nothing :
  ∃ (tree : node) (w' : world) (onChange : list value → M value),
    returns (TransitionCard sample_hooks sample_props) empty_world tree w' ∧
    (∃ children,
       elements Select tree =
       [ ([ (js "onChange", PHandler onChange) ], children) ]) ∧
    dispatched w' = [] ∧
    ∀ (args : list value) (w : world),
      returns (onChange args) w VUndefined
        {| console := console w ++ [ [ VStr (js "adding now") ] ];
           dispatched := dispatched w |}.
Proof.
  destruct (TransitionCard_returns sample_hooks sample_props empty_world
              sample_schemas
              (VObj [ (js "default", VNum 0.5); (js "minimum", VNum 0);
                      (js "maximum", VNum 5) ])
              [ VStr (js "Add"); VStr (js "Dissolve"); VStr (js "Push") ])
    as (tree & w' & Hrun & Hdisp & _ & Hselect & _); try reflexivity.
  exists tree, w', addDevice. split_and!; [done | by eexists | done |].
  intros args w. reflexivity.
Qed.

(** C10, as the claim states it, fails. A display whose entry under its id is
    the number 0 has an entry without a [config], and both reads return that
    0, not [undefined]; and on a display whose [config] is [undefined] the
    read of [display.config[display.id]], which no conjunction guards,
    throws. *)
Lemma nested_reads_not_always_undefined :
  (field (field (display_config (display zero_entry_props))
            (display_id (display zero_entry_props))) (js "config")
     = VUndefined ∧
   transition_mode zero_entry_props empty_world
     = (Return (VNum 0), empty_world) ∧
   transition_time zero_entry_props empty_world
     = (Return (VNum 0), empty_world) ∧
   VNum 0 ≠ VUndefined) ∧
  (transition_mode unconfigured_props empty_world
     = (Throw TypeError, empty_world) ∧
   transition_time unconfigured_props empty_world
     = (Throw TypeError, empty_world)).
Proof. by vm_compute. Qed.

(** C10, amended. The conjunctions guard the reads below [display.config],
    which itself is read unguarded: when [display.config] is [undefined] or
    [null] both reads throw a TypeError. When it is not, and
    [display.config[display.id]] is absent, or is there without a [config] of
    its own, both reads return without throwing and leave the world as it
    was, and both return the same falsy value: [undefined] when the entry is
    absent or truthy, the entry itself when the entry is falsy ([0], [''],
    [null], [false], [NaN]). Rendering then does not fail on the missing
    nested configuration: with the schema in the store the card returns its
    tree. *)
Theorem nested_reads_guarded_below_config (p : props) (w : world) :
  (nullish (display_config (display p)) = true →
   transition_mode p w = (Throw TypeError, w) ∧
   transition_time p w = (Throw TypeError, w)) ∧
  (nullish (display_config (display p)) = false →
   field (display_config (display p)) (display_id (display p)) = VUndefined ∨
   field (field (display_config (display p)) (display_id (display p)))
     (js "config") = VUndefined →
   ∃ v : value,
     returns (transition_mode p) w v w ∧
     returns (transition_time p) w v w ∧
     truthy v = false ∧
     v = (if truthy (field (display_config (display p))
                       (display_id (display p)))
          then VUndefined
          else field (display_config (display p)) (display_id (display p))) ∧
     ∀ (h : hooks) (schemas tt : value) (modes : list value),
       dig (state h)
         [js "schemas"; js "displays"; js "schema"; js "properties"]
         = Some schemas →
       dig schemas [js "transition_mode"; js "enum"] = Some (VArr modes) →
       dig schemas [js "transition_time"] = Some tt →
       nullish tt = false →
       ∃ (tree : node) (w' : world), returns (TransitionCard h p) w tree w').
Proof.
  split.
  - intros Hcfg. unfold transition_mode, transition_time, nested_config,
      js_and, get. rewrite Hcfg. split; reflexivity.
  - intros Hcfg Hmissing.
    pose proof (nested_config_returns p (js "transition_mode") w Hcfg) as Hm.
    pose proof (nested_config_returns p (js "transition_time") w Hcfg) as Ht.
    unfold nested_value in Hm, Ht.
    set (entry := field _ (display_id _)) in *.
    assert (truthy entry = true → field entry (js "config") = VUndefined)
      as Hc.
    { intros He. destruct Hmissing as [Hu | Hu]; [|done].
      by rewrite Hu in He. }
    exists (if truthy entry then VUndefined else entry).
    destruct (truthy entry) eqn:He.
    + rewrite (Hc eq_refl) in Hm, Ht. cbn [truthy] in Hm, Ht.
      split_and!; try done.
      intros h schemas tt modes Hstate Henum Htime Htt.
      destruct (TransitionCard_returns h p w schemas tt modes)
        as (tree & w' & Hrun & _); try done.
      by exists tree, w'.
    + split_and!; try done.
      intros h schemas tt modes Hstate Henum Htime Htt.
      destruct (TransitionCard_returns h p w schemas tt modes)
        as (tree & w' & Hrun & _); try done.
      by exists tree, w'.
Qed.

(** A display with no entry for its id, one whose entry is an object without
    a [config], one whose entry is 0, and one without a [config] to index. *)
Lemma nested_reads_guarded_below_config_witness :
  returns (transition_mode sample_props) empty_world VUndefined empty_world ∧
  returns (transition_time bare_props) empty_world VUndefined empty_world ∧
  returns (transition_mode zero_entry_props) empty_world (VNum 0)
    empty_world ∧
  transition_mode unconfigured_props empty_world
    = (Throw TypeError, empty_world).
Proof.
  split_and!.
  - destruct (proj2 (nested_reads_guarded_below_config sample_props
                       empty_world))
      as (v & Hm & _ & _ & Hv & _); [reflexivity | left; reflexivity |].
    rewrite Hv in Hm. exact Hm.
  - destruct (proj2 (nested_reads_guarded_below_config bare_props
                       empty_world))
      as (v & _ & Ht & _ & Hv & _); [reflexivity | right; reflexivity |].
    rewrite Hv in Ht. exact Ht.
  - destruct (proj2 (nested_reads_guarded_below_config zero_entry_props
                       empty_world))
      as (v & Hm & _ & _ & Hv & _); [reflexivity | right; reflexivity |].
    rewrite Hv in Hm. exact Hm.
  - apply (proj1 (nested_reads_guarded_below_config unconfigured_props
                    empty_world)). reflexivity.
Defined.

(** *** Further properties of the card *)

(** The guarded read, by cases on [display.config]. *)
Lemma nested_config_cases (p : props) (name : jsstring) (w : world) :
  nested_config p name w =
  if nullish (display_config (display p))
  then (Throw TypeError, w)
  else (Return (nested_value p name), w).
Proof.
  destruct (nullish (display_config (display p))) eqn:Hcfg.
  - unfold nested_config, js_and, get. rewrite Hcfg. reflexivity.
  - by apply nested_config_returns.
Qed.

(** X6. The guarded reads throw exactly when [display.config] itself is
    [undefined] or [null], and then with a TypeError; otherwise they return.
    Either way they leave the console and the store as they were. *)
Theorem guarded_reads_throw_iff_config_nullish (p : props) (w : world) :
  (nullish (display_config (display p)) = true ∧
   transition_mode p w = (Throw TypeError, w) ∧
   transition_time p w = (Throw TypeError, w)) ∨
  (nullish (display_config (display p)) = false ∧
   ∃ mode time : value,
     transition_mode p w = (Return mode, w) ∧
     transition_time p w = (Return time, w)).
Proof.
  unfold transition_mode, transition_time. rewrite !nested_config_cases.
  destruct (nullish (display_config (display p))); [left | right].
  - done.
  - split; [done|]. by eexists _, _.
Qed.

Lemma array_map_cases {B} (v : value) (f : value → B) (w : world) :
  array_map v f w =
  match v with
  | VArr items => (Return (map f items), w)
  | _ => (Throw TypeError, w)
  end.
Proof. by destruct v. Qed.

(** One step of a run of the card: decide the next test the run depends on,
    and reduce. *)
Local Ltac crunch_step :=
  first
    [ rewrite nested_config_cases
    | rewrite array_map_cases
    | match goal with
      | |- context [if nullish ?v then _ else _] => destruct (nullish v) eqn:?
      | |- context [match ?v with VArr _ => _ | _ => _ end] => destruct v eqn:?
      end ];
  cbv beta iota delta [throw mret M_ret].

Local Ltac crunch :=
  unfold TransitionCard, useSelector, transition_mode, transition_time,
    mbind, M_bind, console_log, get;
  cbv beta iota delta [throw mret M_ret];
  repeat crunch_step.

(** X8. Rendering never dispatches, whether it returns or throws, and it only
    adds to the console: at most its two lines. *)
Theorem TransitionCard_effects (h : hooks) (p : props) (w : world) :
  dispatched (TransitionCard h p w).2 = dispatched w ∧
  ∃ lines : list (list value),
    console (TransitionCard h p w).2 = console w ++ lines ∧
    (length lines ≤ 2)%nat.
Proof.
  crunch.
  all: cbn [snd dispatched console]; split; [reflexivity|].
  all: first
    [ exists []; split; [by rewrite app_nil_r | simpl; lia]
    | eexists [_]; split; [reflexivity | simpl; lia]
    | eexists [_; _]; split; [by rewrite <- app_assoc | simpl; lia] ].
Qed.

Local Ltac use_nullish_in H :=
  cbn [dig] in H;
  repeat match goal with
         | Hn : nullish ?v = _ |- _ => rewrite Hn in H
         end.

Local Ltac use_nullish :=
  cbn [dig];
  repeat match goal with
         | Hn : nullish ?v = _ |- context [nullish ?v] => rewrite Hn
         end.

(** X7. A display whose entry under its id is an object with a [config]
    object: the two reads return that object's [transition_mode] and
    [transition_time], [undefined] for one it does not have. *)
Theorem nested_config_reads_entry (p : props) (w : world)
    (entries entry cfg : list (jsstring * value)) :
  display_config (display p) = VObj entries →
  assoc (display_id (display p)) entries = Some (VObj entry) →
  assoc (js "config") entry = Some (VObj cfg) →
  returns (transition_mode p) w
    (default VUndefined (assoc (js "transition_mode") cfg)) w ∧
  returns (transition_time p) w
    (default VUndefined (assoc (js "transition_time") cfg)) w.
Proof.
  intros Hcfg Hentry Hconfig.
  unfold returns, transition_mode, transition_time.
  rewrite !nested_config_cases, Hcfg. cbn [nullish].
  unfold nested_value. rewrite Hcfg. cbn [field]. rewrite Hentry.
  cbn [default from_option id truthy field]. rewrite Hconfig. done.
Qed.

Lemma nested_config_reads_entry_witness :
  returns (transition_mode configured_props) empty_world
    (VStr (js "Dissolve")) empty_world ∧
  returns (transition_time configured_props) empty_world
    (VNum 0.5) empty_world.
Proof.
  apply (nested_config_reads_entry configured_props empty_world
           [ (js "strip-1",
              VObj [ (js "config",
                      VObj [ (js "transition_mode", VStr (js "Dissolve"));
                             (js "transition_time", VNum 0.5) ]) ]) ]
           [ (js "config",
              VObj [ (js "transition_mode", VStr (js "Dissolve"));
                     (js "transition_time", VNum 0.5) ]) ]
           [ (js "transition_mode", VStr (js "Dissolve"));
             (js "transition_time", VNum 0.5) ]); reflexivity.
Defined.

(** X9. The card renders exactly when [display.config] can be indexed and
    the store holds the schema: [state.schemas.displays.schema.properties]
    can be read, its [transition_mode.enum] is an array, and its
    [transition_time] is not [undefined] or [null]. In every other case
    rendering throws. *)
Theorem TransitionCard_returns_iff (h : hooks) (p : props) (w : world) :
  (∃ (tree : node) (w' : world), returns (TransitionCard h p) w tree w') ↔
  nullish (display_config (display p)) = false ∧
  ∃ (schemas tt : value) (modes : list value),
    dig (state h) [js "schemas"; js "displays"; js "schema"; js "properties"]
      = Some schemas ∧
    dig schemas [js "transition_mode"; js "enum"] = Some (VArr modes) ∧
    dig schemas [js "transition_time"] = Some tt ∧
    nullish tt = false.
Proof.
  split.
  - intros (tree & w' & Hrun). unfold returns in Hrun. revert Hrun.
    crunch; intros Hrun; try discriminate.
    split; [done|]. eexists _, _, _.
    split_and!; [by use_nullish | use_nullish | by use_nullish | done].
    f_equal. eassumption.
  - intros (Hcfg & schemas & tt & modes & Hstate & Henum & Htime & Htt).
    destruct (TransitionCard_returns h p w schemas tt modes)
      as (tree & w' & Hrun & _); try done.
    by exists tree, w'.
Qed.

(** X10. When [display.config] is [undefined] or [null], or the store does
    not hold [state.schemas.displays.schema], rendering throws a TypeError
    before it has written anything. *)
Theorem TransitionCard_throws_early (h : hooks) (p : props) (w : world) :
  nullish (display_config (display p)) = true ∨
  dig (state h) [js "schemas"; js "displays"; js "schema"; js "properties"]
    = None →
  TransitionCard h p w = (Throw TypeError, w).
Proof.
  intros [Hcfg | Hdig]; crunch; try reflexivity; try congruence.
  all: use_nullish_in Hdig; discriminate.
Qed.

Lemma TransitionCard_throws_early_witness :
  TransitionCard sample_hooks unconfigured_props empty_world
    = (Throw TypeError, empty_world) ∧
  TransitionCard {| class_name := class_name sample_hooks;
                    state := VObj [ (js "schemas", VObj []) ] |}
    sample_props empty_world
    = (Throw TypeError, empty_world).
Proof.
  split.
  - apply (TransitionCard_throws_early sample_hooks unconfigured_props).
    left. reflexivity.
  - apply (TransitionCard_throws_early _ sample_props).
    right. reflexivity.
Defined.

(** *** The handlers of a tree, node by node *)

Lemma handlers_flat_map (ns : list node) :
  flat_map (λ d, match d with
                 | Elem t ps _ =>
                     omap (λ '(k, a), match a with
                                      | PHandler h => Some (t, k, h)
                                      | PValue _ => None
                                      end) ps
                 | _ => []
                 end) (flat_map descendants ns)
  = flat_map handlers ns.
Proof.
  induction ns as [|n ns IH]; [done|].
  cbn [flat_map]. rewrite flat_map_app, IH. done.
Qed.

Lemma handlers_Elem (t : tag) ps cs :
  handlers (Elem t ps cs) =
  omap (λ '(k, a), match a with
                   | PHandler h => Some (t, k, h)
                   | PValue _ => None
                   end) ps
  ++ flat_map handlers cs.
Proof.
  unfold handlers at 1. cbn [descendants flat_map].
  by rewrite handlers_flat_map.
Qed.

Lemma handlers_Items (items : list node) :
  handlers (Items items) = flat_map handlers items.
Proof.
  unfold handlers at 1. cbn [descendants flat_map app].
  by rewrite handlers_flat_map.
Qed.

Lemma handlers_menu_items (modes : list value) :
  flat_map handlers (map menu_item modes) = [].
Proof.
  induction modes as [|m modes IH]; [done|].
  cbn [map flat_map]. rewrite IH. reflexivity.
Qed.

(** What else a rendered card holds: the class names of its content and
    form control, and its handlers. *)
Lemma TransitionCard_layout (h : hooks) (p : props) (w : world)
    (schemas tt : value) (modes : list value) :
  dig (state h) [js "schemas"; js "displays"; js "schema"; js "properties"]
    = Some schemas →
  dig schemas [js "transition_mode"; js "enum"] = Some (VArr modes) →
  dig schemas [js "transition_time"] = Some tt →
  nullish tt = false →
  nullish (display_config (display p)) = false →
  ∃ (tree : node) (w' : world),
    returns (TransitionCard h p) w tree w' ∧
    (∃ children,
       elements CardContent tree =
       [ ([ (js "className",
             PValue (VStr (class_name h (js "content")))) ], children) ]) ∧
    (∃ children,
       elements FormControl tree =
       [ ([ (js "className", PValue VUndefined) ], children) ]) ∧
    handlers tree = [ (Select, js "onChange", addDevice) ].
Proof.
  intros Hstate Henum Htime Htt Hcfg.
  apply dig_cons in Hstate as [? Hstate]. apply dig_cons in Hstate as [? Hstate].
  apply dig_cons in Hstate as [? Hstate]. apply dig_cons in Hstate as [? Hstate].
  apply dig_nil in Hstate. subst schemas.
  apply dig_cons in Henum as [? Henum]. apply dig_cons in Henum as [? Henum].
  apply dig_nil in Henum.
  apply dig_cons in Htime as [_ Htime]. apply dig_nil in Htime. subst tt.
  eexists _, _. split.
  { unfold TransitionCard, useSelector. run. }
  repeat (rewrite ?elements_Elem, ?elements_Items, ?elements_Child,
            ?elements_menu_items; cbn [flat_map app]).
  rewrite ?bool_decide_eq_false_2 by done.
  rewrite ?bool_decide_eq_true_2 by done.
  cbn [app]. rewrite ?app_nil_r.
  split_and!.
  - eexists. reflexivity.
  - eexists. reflexivity.
  - repeat (rewrite ?handlers_Elem, ?handlers_Items, ?handlers_menu_items;
            cbn [flat_map app omap]).
    reflexivity.
Qed.

(** X11. In a rendered card the content carries the class generated for the
    style rule [content], while the form control's [className] is
    [undefined]: the style sheet of the card has the rules [content] and
    [actions] and none named [formControl]. *)
Theorem FormControl_className_undefined (h : hooks) (p : props) (w : world)
    (schemas tt : value) (modes : list value) :
  dig (state h) [js "schemas"; js "displays"; js "schema"; js "properties"]
    = Some schemas →
  dig schemas [js "transition_mode"; js "enum"] = Some (VArr modes) →
  dig schemas [js "transition_time"] = Some tt →
  nullish tt = false →
  nullish (display_config (display p)) = false →
  ∃ (tree : node) (w' : world),
    returns (TransitionCard h p) w tree w' ∧
    (∃ children,
       elements CardContent tree =
       [ ([ (js "className",
             PValue (VStr (class_name h (js "content")))) ], children) ]) ∧
    (∃ children,
       elements FormControl tree =
       [ ([ (js "className", PValue VUndefined) ], children) ]).
Proof.
  intros Hstate Henum Htime Htt Hcfg.
  destruct (TransitionCard_layout h p w schemas tt modes)
    as (tree & w' & Hrun & Hcontent & Hform & _); try done.
  by exists tree, w'.
Qed.

Lemma FormControl_className_undefined_witness :
  ∃ (tree : node) (w' : world),
    returns (TransitionCard sample_hooks sample_props) empty_world tree w' ∧
    (∃ children,
       elements FormControl tree =
       [ ([ (js "className", PValue VUndefined) ], children) ]).
Proof.
  destruct (FormControl_className_undefined sample_hooks sample_props
              empty_world sample_schemas sample_time sample_modes)
    as (tree & w' & Hrun & _ & Hform); try reflexivity.
  exists tree, w'. split; [exact Hrun | exact Hform].
Defined.

(** X12. A render that returns writes two lines to the console, in this
    order: ['YZ-NOTMATT1:'] with the display's transition mode and time as
    read, then ['YZ-NOTMATT2:'] with the schema's modes and its
    [transition_time]. *)
Theorem TransitionCard_console_lines (h : hooks) (p : props) (w : world)
    (schemas tt : value) (modes : list value) :
  dig (state h) [js "schemas"; js "displays"; js "schema"; js "properties"]
    = Some schemas →
  dig schemas [js "transition_mode"; js "enum"] = Some (VArr modes) →
  dig schemas [js "transition_time"] = Some tt →
  nullish tt = false →
  nullish (display_config (display p)) = false →
  ∃ (tree : node) (w' : world),
    returns (TransitionCard h p) w tree w' ∧
    console w' =
      console w ++
      [ [ VStr (js "YZ-NOTMATT1:"); nested_value p (js "transition_mode");
          nested_value p (js "transition_time") ];
        [ VStr (js "YZ-NOTMATT2:"); VArr modes; tt ] ].
Proof.
  intros Hstate Henum Htime Htt Hcfg.
  destruct (TransitionCard_returns h p w schemas tt modes)
    as (tree & w' & Hrun & _ & Hconsole & _); try done.
  by exists tree, w'.
Qed.

(** A display configured under its id, and one whose [config] is an array
    read at the index its id writes. *)
Lemma TransitionCard_console_lines_witness :
  (∃ (tree : node) (w' : world),
     returns (TransitionCard sample_hooks configured_props) empty_world
       tree w' ∧
     console w' =
       [ [ VStr (js "YZ-NOTMATT1:"); VStr (js "Dissolve"); VNum 0.5 ];
         [ VStr (js "YZ-NOTMATT2:"); VArr sample_modes; sample_time ] ]) ∧
  (∃ (tree : node) (w' : world),
     returns (TransitionCard sample_hooks array_props) empty_world tree w' ∧
     console w' =
       [ [ VStr (js "YZ-NOTMATT1:"); VStr (js "Add"); VNum 1 ];
         [ VStr (js "YZ-NOTMATT2:"); VArr sample_modes; sample_time ] ]).
Proof.
  split.
  - destruct (TransitionCard_console_lines sample_hooks configured_props
                empty_world sample_schemas sample_time sample_modes)
      as (tree & w' & Hrun & Hconsole); try reflexivity.
    exists tree, w'. split; [exact Hrun | exact Hconsole].
  - destruct (TransitionCard_console_lines sample_hooks array_props
                empty_world sample_schemas sample_time sample_modes)
      as (tree & w' & Hrun & Hconsole); try reflexivity.
    exists tree, w'. split; [exact Hrun | exact Hconsole].
Defined.

(** X13. A rendered card holds one event handler, the [onChange] of its
    [Select]; the [Slider] has none. Called with any arguments in any world,
    that handler returns [undefined] and dispatches nothing: no event of the
    card reaches the store. *)
Theorem TransitionCard_only_handler (h : hooks) (p : props) (w : world)
    (schemas tt : value) (modes : list value) :
  dig (state h) [js "schemas"; js "displays"; js "schema"; js "properties"]
    = Some schemas →
  dig schemas [js "transition_mode"; js "enum"] = Some (VArr modes) →
  dig schemas [js "transition_time"] = Some tt →
  nullish tt = false →
  nullish (display_config (display p)) = false →
  ∃ (tree : node) (w' : world) (onChange : list value → M value),
    returns (TransitionCard h p) w tree w' ∧
    handlers tree = [ (Select, js "onChange", onChange) ] ∧
    ∀ (args : list value) (w0 : world),
      ∃ w1 : world,
        returns (onChange args) w0 VUndefined w1 ∧
        dispatched w1 = dispatched w0.
Proof.
  intros Hstate Henum Htime Htt Hcfg.
  destruct (TransitionCard_layout h p w schemas tt modes)
    as (tree & w' & Hrun & _ & _ & Hhandlers); try done.
  exists tree, w', addDevice. split_and!; [done | done |].
  intros args w0. eexists. split; reflexivity.
Qed.

Lemma TransitionCard_only_handler_witness :
  ∃ (tree : node) (w' : world) (onChange : list value → M value),
    returns (TransitionCard sample_hooks configured_props) empty_world
      tree w' ∧
    handlers tree = [ (Select, js "onChange", onChange) ].
Proof.
  destruct (TransitionCard_only_handler sample_hooks configured_props
              empty_world sample_schemas sample_time sample_modes)
    as (tree & w' & onChange & Hrun & Hhandlers & _); try reflexivity.
  exists tree, w', onChange. split; [exact Hrun | exact Hhandlers].
Defined.

End TransitionFacts.

(** ** The system API client *)
Module ApiFacts.
Import Api.

Lemma send_one_request (sv : server) (r : request) (sent : list request) :
  send sv r sent = one_request sv sent r.
Proof. reflexivity. Qed.

(** C3. A call of [shutdown()] sends one request, a PUT to [/shutdown] with
    the body [{ timeout: 0 }], and returns the response to it. *)
Theorem shutdown_puts_shutdown (sv : server) (sent : list request) :
  shutdown (api := http_api sv) sent =
  one_request sv sent
    {| verb := PUT; url := js "/shutdown";
       body := Some (VObj [ (js "timeout", VNum 0) ]) |}.
Proof. unfold shutdown. simpl api_put. apply send_one_request. Qed.

(** C4. [getSystemConfig()] sends a GET to [/config];
    [setSystemConfig(config)] sends a POST to [/config] whose body is
    [config] as given. *)
Theorem system_config_requests (sv : server) (sent : list request) :
  getSystemConfig (api := http_api sv) sent =
    one_request sv sent {| verb := GET; url := js "/config"; body := None |} ∧
  ∀ config : value,
    setSystemConfig (api := http_api sv) config sent =
    one_request sv sent
      {| verb := POST; url := js "/config"; body := Some config |}.
Proof. split; [|intros config]; apply send_one_request. Qed.

(** C5. [getSystemInfo()] sends a GET to [/info], [getAudioInputs()] a GET to
    [/audio/devices], and [updateSelectedAudioInput(data)] a PUT to
    [/audio/devices] whose body is [data] as given. *)
Theorem info_and_audio_requests (sv : server) (sent : list request) :
  getSystemInfo (api := http_api sv) sent =
    one_request sv sent {| verb := GET; url := js "/info"; body := None |} ∧
  getAudioInputs (api := http_api sv) sent =
    one_request sv sent
      {| verb := GET; url := js "/audio/devices"; body := None |} ∧
  ∀ data : value,
    updateSelectedAudioInput (api := http_api sv) data sent =
    one_request sv sent
      {| verb := PUT; url := js "/audio/devices"; body := Some data |}.
Proof. split_and!; [| |intros data]; apply send_one_request. Qed.

(** C7. Each of the six operations sends exactly one request and returns the
    server's response to it unchanged: against a server that rejects every
    request the result is that rejection, after one request and no second
    try. *)
Theorem operations_send_once (op : operation) (sv : server)
    (sent : list request) :
  (∃ r : request,
     call (api := http_api sv) op sent = (sv sent r, sent ++ [r])) ∧
  ∀ reason : value,
    ∃ r : request,
      call (api := http_api (λ _ _, Rejected reason)) op sent =
      (Rejected reason, sent ++ [r]).
Proof.
  split; [|intros reason]; destruct op; eexists; apply send_one_request.
Qed.

(** X14. The request an operation sends tells the operation and its argument:
    two calls send the same request exactly when they are the same operation
    with the same argument, whatever the server and whatever was sent
    before. No two of the six operations share a verb and a path. *)
Theorem operations_send_distinct_requests (op1 op2 : operation)
    (sv1 sv2 : server) (sent1 sent2 : list request) :
  last (call (api := http_api sv1) op1 sent1).2 =
  last (call (api := http_api sv2) op2 sent2).2
  ↔ op1 = op2.
Proof.
  split.
  - destruct op1, op2; cbn [call]; unfold shutdown, getSystemConfig,
      setSystemConfig, getSystemInfo, getAudioInputs,
      updateSelectedAudioInput; cbn [api_get api_put api_post http_api];
      unfold send; cbn [snd]; rewrite !last_snoc; intros Hlast;
      try reflexivity; vm_compute in Hlast; congruence.
  - intros <-.
    destruct op1; cbn [call]; unfold shutdown, getSystemConfig,
      setSystemConfig, getSystemInfo, getAudioInputs,
      updateSelectedAudioInput; cbn [api_get api_put api_post http_api];
      unfold send; cbn [snd]; by rewrite !last_snoc.
Qed.

End ApiFacts.
